(** * Single-layer perceptron ([02_perceptron.py]): shallow embedding

    The class [Perceptron] of the script is embedded method by method.
    Python objects are mutable and an exception leaves every assignment
    made before it in place, so the three methods live in a state and
    exception monad over the attributes of [self]. *)

From Stdlib Require Import String ZArith List Lia Bool QArith.
From Stdlib Require PrimFloat.
Import ListNotations.
Open Scope Z_scope.

Set Implicit Arguments.

(** ** Numbers

    The script computes on NumPy [float64] values.  The embedding keeps the
    number type abstract: the operations the methods use are the fields of
    [Arith], and everything proved below holds for every interpretation of
    them.  [ge0 x] is the test [x >= 0] and [ne0 x] the test [x != 0.0];
    [of_int] is the conversion of an integer class label met in a mixed
    expression.  The one law, [ge0_zero], is the comparison [0.0 >= 0]. *)

Class Arith (R : Type) := {
  zero : R;
  add : R -> R -> R;
  sub : R -> R -> R;
  mul : R -> R -> R;
  of_int : Z -> R;
  ge0 : R -> bool;
  ne0 : R -> bool;
  ge0_zero : ge0 zero = true
}.

(** [normal seed loc scale size] stands for
    [np.random.RandomState(seed).normal(loc, scale, size)], which is NumPy's
    and not the script's: the two float literals are passed as the
    rationals the source text writes, and the only fact used is that
    [size] numbers come back. *)

Class RandomState (R : Type) := {
  normal : Z -> Q -> Q -> nat -> list R;
  normal_length : forall seed loc scale size,
      length (normal seed loc scale size) = size
}.

(** ** Arrays and Python values *)

(** A two-dimensional array of shape [(length rows, ncols)].  NumPy arrays
    are rectangular: the values that stand for arrays satisfy
    [wf_matrix]. *)

Record matrix (R : Type) := Matrix {
  ncols : nat;
  rows : list (list R)
}.

Definition wf_matrix {R} (m : matrix R) : Prop :=
  Forall (fun r => length r = ncols m) (rows m).

(** Argument of the methods: a single sample (one-dimensional array) or a
    batch of samples (two-dimensional array). *)

Inductive ndarray (R : Type) :=
| Arr1 (v : list R)
| Arr2 (m : matrix R).

(** What [net_input] and [predict] return: one value for a sample, one per
    row for a batch. *)

Inductive result (A : Type) :=
| Scalar (a : A)
| Vector (v : list A).

(** An element of the target array [y]: a number (the array taken with the
    dtype of [X]), or a string such as the species names the script holds
    before it maps them to -1 and 1. *)

Inductive target (R : Type) :=
| TNum (r : R)
| TStr (s : string).

Arguments TStr {R} s.

Inductive exn :=
| AttributeError   (* attribute read before [fit] has set it *)
| IndexError       (* [X.shape[1]] of a one-dimensional array, [w[0]] of an empty one *)
| TypeError        (* subtraction on a string *)
| ValueError.      (* shapes not aligned *)

(** ** The object and the monad of its methods *)

Record Perceptron (R : Type) := mkPerceptron {
  eta : R;
  n_epoch : Z;
  w : option (list R);
  n_misclass : option (list Z)
}.

(** [__init__]: the two parameters are stored, the other two attributes do
    not exist yet. *)

Definition init {R} (eta0 : R) (n_epoch0 : Z) : Perceptron R :=
  mkPerceptron eta0 n_epoch0 None None.

Definition M (R A : Type) : Type := Perceptron R -> (exn + A) * Perceptron R.

Definition ret {R A} (a : A) : M R A := fun s => (inr a, s).

Definition bind {R A B} (c : M R A) (k : A -> M R B) : M R B :=
  fun s => match c s with
           | (inr a, s') => k a s'
           | (inl e, s') => (inl e, s')
           end.

Definition raise {R A} (e : exn) : M R A := fun s => (inl e, s).

Declare Scope pm_scope.
Delimit Scope pm_scope with pm.
Notation "x <- c ;; k" := (bind c (fun x => k))
  (at level 61, c at next level, right associativity) : pm_scope.
Notation "c ;;; k" := (bind c (fun _ => k))
  (at level 61, right associativity) : pm_scope.
Open Scope pm_scope.

Definition get_eta {R} : M R R := fun s => (inr (eta s), s).
Definition get_n_epoch {R} : M R Z := fun s => (inr (n_epoch s), s).

Definition get_w {R} : M R (list R) :=
  fun s => match w s with
           | Some wv => (inr wv, s)
           | None => (inl AttributeError, s)
           end.

Definition set_w {R} (wv : list R) : M R unit :=
  fun s => (inr tt, mkPerceptron (eta s) (n_epoch s) (Some wv) (n_misclass s)).

Definition get_n_misclass {R} : M R (list Z) :=
  fun s => match n_misclass s with
           | Some l => (inr l, s)
           | None => (inl AttributeError, s)
           end.

Definition set_n_misclass {R} (l : list Z) : M R unit :=
  fun s => (inr tt, mkPerceptron (eta s) (n_epoch s) (w s) (Some l)).

(** A [for] loop over a list that carries the local variables in [acc]. *)

Fixpoint foldM {R A B} (body : B -> A -> M R B) (l : list A) (acc : B) : M R B :=
  match l with
  | [] => ret acc
  | a :: l' => acc' <- body acc a ;; foldM body l' acc'
  end.

Fixpoint for_each {R A} (l : list A) (body : A -> M R unit) : M R unit :=
  match l with
  | [] => ret tt
  | a :: l' => body a ;;; for_each l' body
  end.

(** [range(n)]: empty when [n <= 0]. *)

Definition range (n : Z) : list Z := map Z.of_nat (seq 0 (Z.to_nat n)).

Section Methods.

Context {R : Type} {AR : Arith R} {RS : RandomState R}.

(** ** NumPy operations the methods call *)

(** Sum of products, accumulated from [0.0] in index order. *)
Definition dot_sum (a b : list R) : R :=
  fold_left (fun acc p => add acc (mul (fst p) (snd p))) (combine a b) zero.

(** [np.dot] of two one-dimensional arrays: the lengths must agree. *)
Definition np_dot1 (a b : list R) : M R R :=
  if (length a =? length b)%nat then ret (dot_sum a b) else raise ValueError.

(** [np.dot] of a two-dimensional array with a one-dimensional one: the
    number of columns must be the length of the vector; one sum per row. *)
Definition np_dot2 (m : matrix R) (b : list R) : M R (list R) :=
  if (ncols m =? length b)%nat
  then ret (map (fun r => dot_sum r b) (rows m))
  else raise ValueError.

(** [a[0]] *)
Definition getitem0 (a : list R) : M R R :=
  match a with
  | [] => raise IndexError
  | b :: _ => ret b
  end.

(** [np.where(x >= 0, 1, -1)] at one element. *)
Definition step (x : R) : Z := if ge0 x then 1 else -1.

(** [w[1:] += d]: [d] must have the length of the slice, or length one (it
    is then broadcast). *)
Definition iadd_slice (ws d : list R) : M R (list R) :=
  if (length d =? length ws)%nat
  then ret (map (fun p => add (fst p) (snd p)) (combine ws d))
  else match d with
       | [d0] => ret (map (fun wi => add wi d0) ws)
       | _ => raise ValueError
       end.

(** [yi - p] with [p] an integer label: a string has no subtraction. *)
Definition py_sub (yi : target R) (p : Z) : M R R :=
  match yi with
  | TNum r => ret (sub r (of_int p))
  | TStr _ => raise TypeError
  end.

(** ** [net_input] *)

(** [self.w[0] + np.dot(X, self.w[1:])] for a one-dimensional [X]. *)
Definition net_input1 (X : list R) : M R R :=
  wv <- get_w ;;
  b <- getitem0 wv ;;
  d <- np_dot1 X (tl wv) ;;
  ret (add b d).

(** The same expression for a two-dimensional [X]: the bias is added to
    every entry of the product. *)
Definition net_input2 (X : matrix R) : M R (list R) :=
  wv <- get_w ;;
  b <- getitem0 wv ;;
  d <- np_dot2 X (tl wv) ;;
  ret (map (fun di => add b di) d).

Definition net_input (X : ndarray R) : M R (result R) :=
  match X with
  | Arr1 v => r <- net_input1 v ;; ret (Scalar r)
  | Arr2 m => r <- net_input2 m ;; ret (Vector r)
  end.

(** ** [predict] *)

Definition predict1 (X : list R) : M R Z :=
  r <- net_input1 X ;; ret (step r).

Definition predict2 (X : matrix R) : M R (list Z) :=
  r <- net_input2 X ;; ret (map step r).

Definition predict (X : ndarray R) : M R (result Z) :=
  match X with
  | Arr1 v => p <- predict1 v ;; ret (Scalar p)
  | Arr2 m => p <- predict2 m ;; ret (Vector p)
  end.

(** ** [fit] *)

Definition b2z (b : bool) : Z := if b then 1 else 0.

(** Body of the inner loop; [misclass] is the local counter, [Xi] a row of
    [X] (one-dimensional, so [predict] is [predict1]) and [yi] the entry of
    [y] zipped with it. *)
Definition sample_body (misclass : Z) (s : list R * target R) : M R Z :=
  let (Xi, yi) := s in
  e <- get_eta ;;
  p <- predict1 Xi ;;
  d <- py_sub yi p ;;
  let update := mul e d in
  wv <- get_w ;;
  b <- getitem0 wv ;;
  set_w (add b update :: tl wv) ;;;
  wv' <- get_w ;;
  ws <- iadd_slice (tl wv') (map (fun xi => mul update xi) Xi) ;;
  set_w (firstn 1 wv' ++ ws) ;;;
  ret (misclass + b2z (ne0 update)).

(** Body of the outer loop. *)
Definition epoch_body (X : matrix R) (y : list (target R)) (epoch : Z) : M R unit :=
  misclass <- foldM sample_body (combine (rows X) y) 0 ;;
  l <- get_n_misclass ;;
  set_n_misclass (l ++ [misclass]).

(** [return self] hands the object on: it is the state the monad returns. *)
Definition fit (X : ndarray R) (y : list (target R)) : M R unit :=
  match X with
  | Arr1 _ => raise IndexError
  | Arr2 m =>
      set_w (normal 1 0%Q (1 # 100)%Q (1 + ncols m)) ;;;
      set_n_misclass [] ;;;
      n <- get_n_epoch ;;
      for_each (range n) (epoch_body m y)
  end.

End Methods.

(** ** The update rule in the words of the specification

    Pure functions over the weight vector, against which [fit] is compared:
    the affine score, the decision, the update of one sample, one epoch as
    a left-to-right pass over the samples, and the count of non-zero
    updates of that pass. *)

Section Rule.

Context {R : Type} {AR : Arith R}.

Definition affine (wv x : list R) : R :=
  match wv with
  | [] => zero
  | b :: ws => add b (dot_sum x ws)
  end.

Definition decide (wv x : list R) : Z := step (affine wv x).

(** [update = eta * (true_label - predicted_label)] *)
Definition rule_update (e : R) (wv : list R) (s : list R * R) : R :=
  mul e (sub (snd s) (of_int (decide wv (fst s)))).

(** Bias weight [+= update]; feature weight [i] [+= update * feature i]. *)
Definition rule_step (e : R) (wv : list R) (s : list R * R) : list R :=
  let u := rule_update e wv s in
  match wv with
  | [] => []
  | b :: ws => add b u :: map (fun p => add (fst p) (mul u (snd p))) (combine ws (fst s))
  end.

(** One epoch: the samples in the given order, each on the weights the
    previous one left. *)
Definition rule_epoch (e : R) (wv : list R) (samples : list (list R * R)) : list R :=
  fold_left (rule_step e) samples wv.

(** The updates of one epoch, in order. *)
Fixpoint rule_updates (e : R) (wv : list R) (samples : list (list R * R)) : list R :=
  match samples with
  | [] => []
  | s :: rest => rule_update e wv s :: rule_updates e (rule_step e wv s) rest
  end.

(** How many samples of the epoch had a non-zero update. *)
Definition rule_count (e : R) (wv : list R) (samples : list (list R * R)) : Z :=
  Z.of_nat (length (filter ne0 (rule_updates e wv samples))).

(** [n] epochs in a row. *)
Fixpoint rule_train (n : nat) (e : R) (wv : list R) (samples : list (list R * R)) : list R :=
  match n with
  | O => wv
  | S n' => rule_train n' e (rule_epoch e wv samples) samples
  end.

(** The counts of [n] epochs in a row. *)
Fixpoint rule_counts (n : nat) (e : R) (wv : list R) (samples : list (list R * R)) : list Z :=
  match n with
  | O => []
  | S n' => rule_count e wv samples :: rule_counts n' e (rule_epoch e wv samples) samples
  end.

End Rule.

(** ** A training set as the specification wants it *)

Section TrainingSet.

Context {R : Type} {AR : Arith R}.

Definition numeric (y : list (target R)) (ys : list R) : Prop := y = map (@TNum R) ys.

(** Non-empty, rectangular, one label per sample, labels -1 or 1. *)
Definition well_formed (X : matrix R) (y : list (target R)) (ls : list Z) : Prop :=
  rows X <> [] /\ wf_matrix X /\
  length ls = length (rows X) /\
  Forall (fun l => l = -1 \/ l = 1) ls /\
  numeric y (map of_int ls).

End TrainingSet.

(** ** States and properties the statements speak of *)

Section Notions.

Context {R : Type} {AR : Arith R} {RS : RandomState R}.

(** The object with its weights replaced. *)
Definition with_w (c : Perceptron R) (wv : list R) : Perceptron R :=
  mkPerceptron (eta c) (n_epoch c) (Some wv) (n_misclass c).

(** The object after training: parameters kept, both attributes set. *)
Definition trained (c : Perceptron R) (wv : list R) (l : list Z) : Perceptron R :=
  mkPerceptron (eta c) (n_epoch c) (Some wv) (Some l).

(** The weights [fit] starts from, for [F] features. *)
Definition drawn (F : nat) : list R := normal 1 0%Q (1 # 100)%Q (1 + F).

(** The object as the first two assignments of [fit] leave it. *)
Definition reset (c : Perceptron R) (F : nat) : Perceptron R :=
  mkPerceptron (eta c) (n_epoch c) (Some (drawn F)) (Some []).

(** The two loops of [fit]. *)
Definition training (X : matrix R) (y : list (target R)) : M R unit :=
  n <- get_n_epoch ;; for_each (range n) (epoch_body X y).

(** Parameters [e] and [n], weights for [F] features, a list of counts. *)
Definition shaped (F : nat) (e : R) (n : Z) (s : Perceptron R) : Prop :=
  eta s = e /\ n_epoch s = n /\
  (exists wv, w s = Some wv /\ length wv = S F) /\
  (exists l, n_misclass s = Some l).

(** Every update of the epoch leaves the weights [wv] as they are. *)
Fixpoint epoch_still (e : R) (wv : list R) (samples : list (list R * R)) : Prop :=
  match samples with
  | [] => True
  | s :: rest => rule_step e wv s = wv /\ epoch_still e wv rest
  end.

(** A method call that leaves the object as it found it. *)
Definition readonly {A} (m : M R A) : Prop := forall s, snd (m s) = s.

(** The object after [k] calls of [predict] on [X], whatever they gave. *)
Fixpoint after_calls (k : nat) (X : ndarray R) (c : Perceptron R) : Perceptron R :=
  match k with
  | O => c
  | S k' => after_calls k' X (snd (predict X c))
  end.

End Notions.

(** ** Integer instance

    Exact arithmetic on [Z], with a stand-in generator, on which the
    methods run inside Rocq. *)

Module IntArith.

#[export] Instance arith : Arith Z := {|
  zero := 0;
  add := Z.add;
  sub := Z.sub;
  mul := Z.mul;
  of_int := fun z => z;
  ge0 := fun x => 0 <=? x;
  ne0 := fun x => negb (x =? 0);
  ge0_zero := eq_refl
|}.

Definition draw (seed : Z) (size : nat) : list Z :=
  map (fun i => (seed + Z.of_nat i) mod 3 - 1) (seq 0 size).

Lemma draw_length seed size : length (draw seed size) = size.
Proof. unfold draw. now rewrite length_map, length_seq. Qed.

#[export] Instance rng : RandomState Z := {|
  normal := fun seed _ _ size => draw seed size;
  normal_length := fun seed _ _ size => draw_length seed size
|}.

(** Four points of the plane, two of each class. *)
Definition X4 : matrix Z := Matrix 2 [[1; 2]; [2; -1]; [-1; -3]; [-2; 1]].
Definition l4 : list Z := [1; -1; -1; 1].
Definition y4 : list (target Z) := map (@TNum Z) l4.

(** A classifier trained for three epochs on the four points. *)
Definition fitted4 : Perceptron Z := mkPerceptron 1 3 (Some [0; -1; 5]) (Some [2; 0; 0]).

(** The four species names the labels were mapped from. *)
Definition names4 : list (target Z) :=
  [TStr "Iris-versicolor"; TStr "Iris-setosa"; TStr "Iris-setosa"; TStr "Iris-versicolor"].

End IntArith.

(** ** Binary64 instance

    The arithmetic the script runs in: IEEE 754 binary64, as the kernel's
    primitive floats compute it.  [x >= 0] is [0 <= x] and [x != 0.0] the
    negation of [x == 0], both false and true in turn at NaN.  The
    conversion of an integer is exact below [2^53], which covers the class
    labels.  The generator is a stand-in: the first three draws of
    [RandomState(seed=1).normal(0.0, 0.01, .)] to the digits NumPy prints,
    repeated in turn. *)

Module Binary64.

Import PrimFloat.

Fixpoint of_pos (p : positive) : PrimFloat.float :=
  match p with
  | xH => 1%float
  | xO q => PrimFloat.mul 2%float (of_pos q)
  | xI q => PrimFloat.add (PrimFloat.mul 2%float (of_pos q)) 1%float
  end.

Definition of_Z (z : Z) : PrimFloat.float :=
  match z with
  | Z0 => 0%float
  | Zpos p => of_pos p
  | Zneg p => PrimFloat.opp (of_pos p)
  end.

#[export] Instance arith : Arith PrimFloat.float :=
  @Build_Arith PrimFloat.float 0%float PrimFloat.add PrimFloat.sub PrimFloat.mul
    of_Z
    (fun x => PrimFloat.leb 0%float x)
    (fun x => negb (PrimFloat.eqb x 0%float))
    eq_refl.

Definition draws : list PrimFloat.float :=
  [0x1.0a21fb892deecp-6%float; (-0x1.90ebb1e5bf7e8p-8)%float;
   (-0x1.5a248406c3d36p-8)%float].

Definition draw (size : nat) : list PrimFloat.float :=
  map (fun i => nth (i mod 3) draws 0%float) (seq 0 size).

Lemma draw64_length size : length (draw size) = size.
Proof. unfold draw. now rewrite length_map, length_seq. Qed.

#[export] Instance rng : RandomState PrimFloat.float :=
  @Build_RandomState PrimFloat.float (fun _ _ _ size => draw size)
    (fun _ _ _ size => draw64_length size).

(** The learning rate of the script, [0.1]. *)
Definition eta01 : PrimFloat.float := 0x1.999999999999ap-4%float.


(** Four points of the plane, two of each class. *)
Definition X4f : matrix PrimFloat.float :=
  Matrix 2 [[1%float; 2%float]; [2%float; (-1)%float];
            [(-1)%float; (-3)%float]; [(-2)%float; 1%float]].
Definition l4f : list Z := [1; -1; -1; 1].

End Binary64.

(** ** The script around the class *)

Section Script.

Context {R : Type} {AR : Arith R} {RS : RandomState R}.

(** Line 129, [np.where(y == 'Iris-setosa', -1, 1)], on the species names
    of line 128. *)
Definition relabel (names : list string) : list Z :=
  map (fun s => if String.eqb s "Iris-setosa" then -1 else 1) names.

(** An integer label array as [fit] meets it (see [well_formed]). *)
Definition int_targets (ls : list Z) : list (target R) :=
  map (@TNum R) (map of_int ls).

(** The first [len(X)] targets are numbers. *)
Definition is_num (t : target R) : bool :=
  match t with
  | TNum _ => true
  | TStr _ => false
  end.

Definition num_of (t : target R) : R :=
  match t with
  | TNum r => r
  | TStr _ => zero
  end.

(** *** [plot_decision_regions]: the data it computes

    The calls into Matplotlib are effects outside the embedding; what is
    kept is the grid of labels handed to [contourf] and the colour handed
    to each [scatter].  The two axes are the results of [np.arange]. *)

(** [np.meshgrid(a, b)]: both grids have one row per element of [b] and one
    column per element of [a]. *)
Definition meshgrid {A} (a b : list A) : list (list A) * list (list A) :=
  (map (fun _ => a) b, map (fun bi => map (fun _ => bi) a) b).

(** [g.ravel()], row after row. *)
Definition ravel {A} (g : list (list A)) : list A := concat g.

(** [np.array([u, v]).T]: one row [[u_k, v_k]] per index; the two arrays
    must be as long as each other. *)
Definition stack_T (u v : list R) : M R (matrix R) :=
  if (length u =? length v)%nat
  then ret (Matrix 2 (map (fun p => [fst p; snd p]) (combine u v)))
  else raise ValueError.

Fixpoint chunks {A} (r c : nat) (l : list A) : list (list A) :=
  match r with
  | O => []
  | S r' => firstn c l :: chunks r' c (skipn c l)
  end.

(** [z.reshape((r, c))]: the size must be [r * c]. *)
Definition reshape {A} (r c : nat) (l : list A) : M R (list (list A)) :=
  if (length l =? r * c)%nat then ret (chunks r c l) else raise ValueError.

(** Lines 206 to 211, from the two axes to the reshaped labels. *)
Definition decision_grid (a0 a1 : list R) : M R (list (list Z)) :=
  let (X0_grid, X1_grid) := meshgrid a0 a1 in
  X0X1_combs <- stack_T (ravel X0_grid) (ravel X1_grid) ;;
  Zr <- predict (Arr2 X0X1_combs) ;;
  match Zr with
  | Scalar p => reshape (length a1) (length a0) [p]
  | Vector v => reshape (length a1) (length a0) v
  end.

(** Line 201. *)
Definition colors : list string := ["red"; "blue"; "green"]%string.

Fixpoint insert_sorted (z : Z) (l : list Z) : list Z :=
  match l with
  | [] => [z]
  | a :: l' =>
      if z <? a then z :: l
      else if z =? a then l
      else a :: insert_sorted z l'
  end.

(** [np.unique(y)]: the distinct labels, ascending. *)
Definition np_unique (y : list Z) : list Z := fold_right insert_sorted [] y.

(** Line 202, the colours of the colormap: [colors[:len(np.unique(y))]]. *)
Definition cmap_colors (y : list Z) : list string :=
  firstn (length (np_unique y)) colors.

(** Lines 218 to 220: the class and the colour [colors[pos]] of each
    [scatter], in order. *)
Fixpoint scatter_classes (pos : nat) (classes : list Z) : M R (list (Z * string)) :=
  match classes with
  | [] => ret []
  | cl :: rest =>
      match nth_error colors pos with
      | None => raise IndexError
      | Some col => r <- scatter_classes (S pos) rest ;; ret ((cl, col) :: r)
      end
  end.

End Script.

(** Four species names, as line 128 reads them. *)
Definition species4 : list string :=
  ["Iris-versicolor"; "Iris-setosa"; "Iris-setosa"; "Iris-versicolor"]%string.

(** * Proofs *)

(** ** Running [fit] on numeric targets *)

Section FitRun.

Context {R : Type} {AR : Arith R} {RS : RandomState R}.

Lemma iadd_pairs (u : R) (ws x : list R) :
  map (fun p => add (fst p) (snd p)) (combine ws (map (fun xi => mul u xi) x))
  = map (fun p => add (fst p) (mul u (snd p))) (combine ws x).
Proof.
  revert x; induction ws as [|a ws IH]; intros [|b x]; simpl; try reflexivity.
  now rewrite IH.
Qed.

Lemma rule_step_length (e : R) (wv x : list R) (yv : R) :
  length wv = S (length x) -> length (rule_step e wv (x, yv)) = length wv.
Proof.
  destruct wv as [|b ws]; simpl; intros H; [discriminate|].
  injection H as H.
  now rewrite length_map, length_combine, H, Nat.min_id.
Qed.

(** A sample of the trained width: the score and the label, the object
    untouched. *)
Lemma net_input1_run (c : Perceptron R) (b : R) (ws x : list R) :
  w c = Some (b :: ws) -> length x = length ws ->
  net_input1 x c = (inr (add b (dot_sum x ws)), c).
Proof.
  intros Hw Hlen. unfold net_input1, bind, get_w. rewrite Hw. simpl.
  unfold np_dot1. rewrite Hlen, Nat.eqb_refl. reflexivity.
Qed.

Lemma predict1_run (c : Perceptron R) (b : R) (ws x : list R) :
  w c = Some (b :: ws) -> length x = length ws ->
  predict1 x c = (inr (step (add b (dot_sum x ws))), c).
Proof.
  intros Hw Hlen. unfold predict1, bind.
  now rewrite net_input1_run with (b := b) (ws := ws).
Qed.

(** One pass of the inner loop body: the counter and the weights after it
    are those of the rule. *)
Lemma sample_body_run (c : Perceptron R) (wv x : list R) (yv : R) (acc : Z) :
  w c = Some wv -> length wv = S (length x) ->
  sample_body acc (x, TNum yv) c
  = (inr (acc + b2z (ne0 (rule_update (eta c) wv (x, yv)))),
     with_w c (rule_step (eta c) wv (x, yv))).
Proof.
  intros Hw Hlen.
  destruct wv as [|b ws]; [discriminate|].
  injection Hlen as Hlen. symmetry in Hlen.
  unfold sample_body, bind at 1 2, get_eta.
  rewrite predict1_run with (b := b) (ws := ws) by assumption.
  unfold bind, py_sub, ret, get_w. rewrite Hw. simpl.
  unfold iadd_slice. rewrite length_map, Hlen, Nat.eqb_refl, iadd_pairs.
  reflexivity.
Qed.

Lemma with_w_same (c : Perceptron R) (wv : list R) :
  w c = Some wv -> with_w c wv = c.
Proof. destruct c; simpl; intros ->; reflexivity. Qed.

Lemma rule_count_cons (e : R) (wv : list R) (s : list R * R) (rest : list (list R * R)) :
  rule_count e wv (s :: rest)
  = b2z (ne0 (rule_update e wv s)) + rule_count e (rule_step e wv s) rest.
Proof.
  unfold rule_count; simpl.
  destruct (ne0 (rule_update e wv s)); simpl length; unfold b2z; lia.
Qed.

(** The inner loop over [zip(X, y)]: one epoch of the rule. *)
Lemma inner_loop_run (F : nat) (rs : list (list R)) :
  Forall (fun r => length r = F) rs ->
  forall (ys : list R) (c : Perceptron R) (wv : list R) (acc : Z),
    w c = Some wv -> length wv = S F ->
    foldM sample_body (combine rs (map (@TNum R) ys)) acc c
    = (inr (acc + rule_count (eta c) wv (combine rs ys)),
       with_w c (rule_epoch (eta c) wv (combine rs ys))).
Proof.
  induction 1 as [|r rs Hr Hrs IH]; intros ys c wv acc Hw Hlen.
  - simpl. unfold ret, rule_count. simpl.
    now rewrite Z.add_0_r, with_w_same.
  - destruct ys as [|yv ys].
    + simpl. unfold ret, rule_count. simpl.
      now rewrite Z.add_0_r, with_w_same.
    + simpl combine. cbn [foldM]. unfold bind.
      assert (Hlen' : length wv = S (length r)) by now rewrite Hr.
      rewrite sample_body_run with (wv := wv) by assumption.
      rewrite (IH ys (with_w c (rule_step (eta c) wv (r, yv)))
                 (rule_step (eta c) wv (r, yv))); try reflexivity.
      * rewrite rule_count_cons, Z.add_assoc. reflexivity.
      * now rewrite rule_step_length.
Qed.

Lemma rule_epoch_length (F : nat) (e : R) (rs : list (list R)) :
  Forall (fun r => length r = F) rs ->
  forall (ys : list R) (wv : list R),
    length wv = S F -> length (rule_epoch e wv (combine rs ys)) = S F.
Proof.
  induction 1 as [|r rs Hr Hrs IH]; intros ys wv Hlen; [assumption|].
  destruct ys as [|yv ys]; [assumption|].
  simpl. apply IH. rewrite rule_step_length; [assumption | now rewrite Hr].
Qed.

(** The outer loop: as many epochs as the list it ranges over is long, the
    count of each appended in turn. *)
Lemma epochs_run (X : matrix R) (ys : list R) (ks : list Z) :
  wf_matrix X ->
  forall (c : Perceptron R) (wv : list R) (l : list Z),
    w c = Some wv -> n_misclass c = Some l -> length wv = S (ncols X) ->
    for_each ks (epoch_body X (map (@TNum R) ys)) c
    = (inr tt,
       trained c
         (rule_train (length ks) (eta c) wv (combine (rows X) ys))
         (l ++ rule_counts (length ks) (eta c) wv (combine (rows X) ys))).
Proof.
  intros HX. induction ks as [|k ks IH]; intros c wv l Hw Hl Hlen.
  - simpl. unfold ret, trained. rewrite app_nil_r.
    destruct c; simpl in *; now subst.
  - cbn [for_each]. unfold bind at 1, epoch_body at 1, bind at 1.
    rewrite inner_loop_run with (F := ncols X) (wv := wv) by assumption.
    unfold bind, get_n_misclass, set_n_misclass, with_w. cbn [n_misclass].
    rewrite Hl. cbn [eta n_epoch w n_misclass].
    erewrite IH; cbn [eta n_epoch w n_misclass]; try reflexivity.
    + unfold trained. cbn [eta n_epoch length rule_train rule_counts].
      rewrite <- app_assoc. reflexivity.
    + now apply rule_epoch_length.
Qed.

Lemma range_length (n : Z) : length (range n) = Z.to_nat n.
Proof. unfold range. now rewrite length_map, length_seq. Qed.

(** [fit] on a rectangular matrix and numeric targets never fails, and
    leaves the weights and the counts of [Z.to_nat n_epoch] epochs of the
    rule, started from the drawn weights. *)
Lemma fit_run (X : matrix R) (ys : list R) (c : Perceptron R) :
  wf_matrix X ->
  fit (Arr2 X) (map (@TNum R) ys) c
  = (inr tt,
     trained c
       (rule_train (Z.to_nat (n_epoch c)) (eta c) (drawn (ncols X)) (combine (rows X) ys))
       (rule_counts (Z.to_nat (n_epoch c)) (eta c) (drawn (ncols X)) (combine (rows X) ys))).
Proof.
  intros HX. unfold fit, bind, set_w, set_n_misclass, get_n_epoch.
  cbn [eta n_epoch w n_misclass].
  erewrite epochs_run; cbn [eta n_epoch w n_misclass]; try reflexivity; try assumption.
  - unfold trained. cbn [eta n_epoch app]. now rewrite range_length.
  - apply normal_length.
Qed.

End FitRun.

(** ** Methods that only read the object *)

Section ReadOnly.

Context {R : Type} {AR : Arith R}.

Lemma readonly_ret {A} (a : A) : readonly (R:=R) (ret a).
Proof. intro s; reflexivity. Qed.

Lemma readonly_raise {A} (e : exn) : readonly (@raise R A e).
Proof. intro s; reflexivity. Qed.

Lemma readonly_bind {A B} (m : M R A) (k : A -> M R B) :
  readonly m -> (forall a, readonly (k a)) -> readonly (bind m k).
Proof.
  intros Hm Hk s. unfold bind. specialize (Hm s).
  destruct (m s) as [[e|a] s']; simpl in *; subst; [reflexivity | apply Hk].
Qed.

Lemma readonly_get_w : readonly (@get_w R).
Proof. intro s; unfold get_w; destruct (w s); reflexivity. Qed.

Lemma readonly_getitem0 (a : list R) : readonly (getitem0 a).
Proof. destruct a; [apply readonly_raise | apply readonly_ret]. Qed.

Lemma readonly_np_dot1 (a b : list R) : readonly (np_dot1 a b).
Proof.
  unfold np_dot1; destruct (_ =? _)%nat; [apply readonly_ret | apply readonly_raise].
Qed.

Lemma readonly_np_dot2 (m : matrix R) (b : list R) : readonly (np_dot2 m b).
Proof.
  unfold np_dot2; destruct (_ =? _)%nat; [apply readonly_ret | apply readonly_raise].
Qed.

Create HintDb readonly.
#[local] Hint Resolve readonly_ret readonly_raise readonly_get_w readonly_getitem0
  readonly_np_dot1 readonly_np_dot2 : readonly.

Lemma readonly_net_input1 (X : list R) : readonly (net_input1 X).
Proof. unfold net_input1. repeat (apply readonly_bind; [|intro]); auto with readonly. Qed.

Lemma readonly_net_input2 (X : matrix R) : readonly (net_input2 X).
Proof. unfold net_input2. repeat (apply readonly_bind; [|intro]); auto with readonly. Qed.

Lemma readonly_net_input (X : ndarray R) : readonly (net_input X).
Proof.
  destruct X; simpl; apply readonly_bind;
    auto using readonly_net_input1, readonly_net_input2 with readonly.
Qed.

Lemma readonly_predict1 (X : list R) : readonly (predict1 X).
Proof.
  unfold predict1; apply readonly_bind; auto using readonly_net_input1 with readonly.
Qed.

Lemma readonly_predict2 (X : matrix R) : readonly (predict2 X).
Proof.
  unfold predict2; apply readonly_bind; auto using readonly_net_input2 with readonly.
Qed.

Lemma readonly_predict (X : ndarray R) : readonly (predict X).
Proof.
  destruct X; simpl; apply readonly_bind;
    auto using readonly_predict1, readonly_predict2 with readonly.
Qed.

End ReadOnly.

(** ** What every run of [fit] keeps, failed or not *)

Section Shape.

Context {R : Type} {AR : Arith R} {RS : RandomState R}.

Lemma iadd_slice_inv (ws d : list R) (s s' : Perceptron R) (r : exn + list R) :
  iadd_slice ws d s = (r, s') ->
  s' = s /\ forall v, r = inr v -> length v = length ws.
Proof.
  unfold iadd_slice.
  destruct (Nat.eqb_spec (length d) (length ws)) as [E|E].
  - intros [= <- <-]; split; [reflexivity|]. intros v [= <-].
    now rewrite length_map, length_combine, E, Nat.min_id.
  - destruct d as [|d0 [|d1 d]]; intros [= <- <-]; split; try reflexivity;
      intros v [= <-]. now rewrite length_map.
Qed.

Lemma sample_body_shaped (F : nat) (e : R) (n : Z) (acc : Z)
      (smp : list R * target R) (s : Perceptron R) :
  shaped F e n s -> shaped F e n (snd (sample_body acc smp s)).
Proof.
  intros Hs. pose proof Hs as (He & Hn & (wv & Hw & Hlen) & (l & Hl)).
  destruct smp as [x yi]. unfold sample_body, bind at 1, get_eta.
  unfold bind at 1. pose proof (readonly_predict1 x s) as Hp.
  destruct (predict1 x s) as [[ex|p] s1]; simpl in Hp; subst s1; [exact Hs|].
  unfold bind at 1.
  destruct yi as [yv|str]; [|exact Hs]. cbn [py_sub ret].
  unfold bind at 1, get_w. rewrite Hw.
  destruct wv as [|b ws]; [discriminate|]. injection Hlen as Hlen.
  cbn [getitem0 tl]. unfold bind at 1, ret. unfold bind at 1, set_w.
  unfold bind at 1. cbn [w tl]. unfold bind at 1.
  match goal with
  | |- context [iadd_slice ?a ?d ?st] =>
      destruct (iadd_slice a d st) as [[ex|v] s2] eqn:Ei;
      destruct (iadd_slice_inv _ _ _ Ei) as [-> Hv]
  end.
  - cbn [snd]. repeat split; cbn [eta n_epoch w n_misclass]; eauto.
    eexists; split; [reflexivity|]. simpl. now rewrite Hlen.
  - unfold bind, ret. cbn [snd eta n_epoch w n_misclass firstn app].
    repeat split; cbn [eta n_epoch w n_misclass]; eauto.
    eexists; split; [reflexivity|]. simpl. now rewrite (Hv v eq_refl), Hlen.
Qed.

Lemma inner_loop_shaped (F : nat) (e : R) (n : Z)
      (l : list (list R * target R)) :
  forall (acc : Z) (s : Perceptron R),
    shaped F e n s -> shaped F e n (snd (foldM sample_body l acc s)).
Proof.
  induction l as [|smp l IH]; intros acc s Hs; [exact Hs|].
  cbn [foldM]. unfold bind.
  pose proof (sample_body_shaped acc smp Hs) as H1.
  destruct (sample_body acc smp s) as [[ex|acc'] s1]; cbn [snd] in *;
    [exact H1 | now apply IH].
Qed.

Lemma epoch_body_shaped (F : nat) (e : R) (n : Z) (X : matrix R)
      (y : list (target R)) (k : Z) (s : Perceptron R) :
  shaped F e n s -> shaped F e n (snd (epoch_body X y k s)).
Proof.
  intros Hs. unfold epoch_body, bind at 1.
  pose proof (inner_loop_shaped (combine (rows X) y) 0 Hs) as H1.
  destruct (foldM sample_body (combine (rows X) y) 0 s) as [[ex|m] s1];
    cbn [snd] in *; [exact H1|].
  destruct H1 as (He & Hn & Hw & (l & Hl)).
  unfold bind, get_n_misclass, set_n_misclass. rewrite Hl. cbn [snd].
  repeat split; cbn [eta n_epoch w n_misclass]; eauto.
Qed.

Lemma epochs_shaped (F : nat) (e : R) (n : Z) (X : matrix R)
      (y : list (target R)) (ks : list Z) :
  forall s : Perceptron R,
    shaped F e n s -> shaped F e n (snd (for_each ks (epoch_body X y) s)).
Proof.
  induction ks as [|k ks IH]; intros s Hs; [exact Hs|].
  cbn [for_each]. unfold bind.
  pose proof (epoch_body_shaped X y k Hs) as H1.
  destruct (epoch_body X y k s) as [[ex|u] s1]; cbn [snd] in *;
    [exact H1 | now apply IH].
Qed.

Lemma fit_unfold (X : matrix R) (y : list (target R)) (c : Perceptron R) :
  fit (Arr2 X) y c = training X y (reset c (ncols X)).
Proof. reflexivity. Qed.

Lemma fit_shaped (X : matrix R) (y : list (target R)) (c : Perceptron R) :
  shaped (ncols X) (eta c) (n_epoch c) (snd (fit (Arr2 X) y c)).
Proof.
  rewrite fit_unfold. unfold training, bind, get_n_epoch.
  apply epochs_shaped. unfold reset, shaped; cbn [eta n_epoch w n_misclass].
  repeat split; eauto. eexists; split; [reflexivity|]. apply normal_length.
Qed.

End Shape.

(** ** Facts about the rule *)

Section RuleFacts.

Context {R : Type} {AR : Arith R}.

Lemma rule_counts_length (n : nat) (e : R) (samples : list (list R * R)) :
  forall wv, length (rule_counts n e wv samples) = n.
Proof. induction n as [|n IH]; intros wv; simpl; [reflexivity | now rewrite IH]. Qed.

(** Entry [k] of the counts is the count of the epoch run on the weights
    that [k] epochs leave. *)
Lemma rule_counts_nth (n : nat) (e : R) (samples : list (list R * R)) :
  forall (k : nat) (wv : list R),
    (k < n)%nat ->
    nth_error (rule_counts n e wv samples) k
    = Some (rule_count e (rule_train k e wv samples) samples).
Proof.
  induction n as [|n IH]; intros k wv Hk; [lia|].
  destruct k as [|k]; simpl; [reflexivity|]. apply IH. lia.
Qed.

Lemma rule_train_add (k d : nat) (e : R) (samples : list (list R * R)) :
  forall wv,
    rule_train (k + d) e wv samples
    = rule_train d e (rule_train k e wv samples) samples.
Proof. induction k as [|k IH]; intros wv; simpl; [reflexivity | apply IH]. Qed.

Lemma rule_train_length (F : nat) (e : R) (rs : list (list R)) (ys : list R) :
  Forall (fun r => length r = F) rs ->
  forall (n : nat) (wv : list R),
    length wv = S F -> length (rule_train n e wv (combine rs ys)) = S F.
Proof.
  intros Hrs. induction n as [|n IH]; intros wv Hlen; simpl; [assumption|].
  apply IH. now apply rule_epoch_length.
Qed.

Lemma rule_updates_length (e : R) (samples : list (list R * R)) :
  forall wv, length (rule_updates e wv samples) = length samples.
Proof. induction samples as [|s rest IH]; intros wv; simpl; [reflexivity | now rewrite IH]. Qed.

Lemma rule_count_bounds (e : R) (wv : list R) (samples : list (list R * R)) :
  0 <= rule_count e wv samples <= Z.of_nat (length samples).
Proof.
  unfold rule_count. split; [lia|].
  apply Nat2Z.inj_le. rewrite <- (rule_updates_length e samples wv).
  apply filter_length_le.
Qed.

(** Weights an epoch leaves as it found them stay for good, and so does
    the count. *)
Lemma rule_train_fixed (e : R) (wv : list R) (samples : list (list R * R)) (n : nat) :
  rule_epoch e wv samples = wv -> rule_train n e wv samples = wv.
Proof. intros H. induction n as [|n IH]; simpl; [reflexivity | now rewrite H]. Qed.

Lemma rule_counts_fixed (e : R) (wv : list R) (samples : list (list R * R)) (n : nat) :
  rule_epoch e wv samples = wv ->
  rule_counts n e wv samples = repeat (rule_count e wv samples) n.
Proof.
  intros H. induction n as [|n IH]; simpl; [reflexivity|]. now rewrite H, IH.
Qed.

End RuleFacts.

(** * The claims *)

Section Claims.

Context {R : Type} {AR : Arith R} {RS : RandomState R}.

(** C1.  On a well-formed training set (non-empty rectangular matrix, one
    label of -1 or 1 per sample) and a non-negative [n_epoch], [fit]
    completes and leaves the weights of exactly [n_epoch] epochs of the
    rule run from the drawn weights, each epoch a pass over the samples in
    the order given.  For each sample the loop body takes the label
    [predict] gives on the current weights, computes
    [update = eta * (label - predicted)], adds [update] to the bias weight
    and [update * feature i] to feature weight [i]. *)
Theorem fit_follows_rule (c : Perceptron R) (X : matrix R)
        (y : list (target R)) (ls : list Z) :
  well_formed X y ls -> 0 <= n_epoch c ->
  (exists n : nat,
      Z.of_nat n = n_epoch c /\
      fit (Arr2 X) y c
      = (inr tt,
         trained c
           (rule_train n (eta c) (drawn (ncols X)) (combine (rows X) (map of_int ls)))
           (rule_counts n (eta c) (drawn (ncols X)) (combine (rows X) (map of_int ls)))))
  /\
  (forall (s : Perceptron R) (b : R) (ws x : list R) (yv : R) (acc : Z),
      w s = Some (b :: ws) -> length x = length ws ->
      exists p : Z,
        predict (Arr1 x) s = (inr (Scalar p), s) /\
        let update := mul (eta s) (sub yv (of_int p)) in
        sample_body acc (x, TNum yv) s
        = (inr (acc + b2z (ne0 update)),
           with_w s (add b update
                     :: map (fun q => add (fst q) (mul update (snd q))) (combine ws x)))).
Proof.
  intros (Hne & HX & Hlen & Hls & Hy) Hn. split.
  - exists (Z.to_nat (n_epoch c)). split; [lia|].
    unfold numeric in Hy. subst y. now apply fit_run.
  - intros s b ws x yv acc Hw Hx.
    exists (step (add b (dot_sum x ws))). split.
    + simpl. unfold bind. now rewrite predict1_run with (b := b) (ws := ws).
    + cbv zeta. rewrite sample_body_run with (wv := b :: ws);
        [reflexivity | assumption | simpl; now rewrite Hx].
Qed.

(** C2.  For a trained classifier and a sample of the trained width,
    [predict] returns 1 when the net input [bias + dot] is [>= 0] and -1
    otherwise, on a single sample and on every row of a batch; a net input
    that is exactly zero gives 1. *)
Theorem predict_threshold (c : Perceptron R) (b : R) (ws x : list R) :
  w c = Some (b :: ws) -> length x = length ws ->
  net_input (Arr1 x) c = (inr (Scalar (add b (dot_sum x ws))), c) /\
  predict (Arr1 x) c
  = (inr (Scalar (if ge0 (add b (dot_sum x ws)) then 1 else -1)), c) /\
  (add b (dot_sum x ws) = zero -> predict (Arr1 x) c = (inr (Scalar 1), c)) /\
  (forall m : matrix R,
      ncols m = length ws ->
      predict (Arr2 m) c
      = (inr (Vector (map (fun r => if ge0 (add b (dot_sum r ws)) then 1 else -1)
                          (rows m))), c)).
Proof.
  intros Hw Hx.
  assert (Hp : predict (Arr1 x) c
               = (inr (Scalar (if ge0 (add b (dot_sum x ws)) then 1 else -1)), c)).
  { simpl. unfold bind. now rewrite predict1_run with (b := b) (ws := ws). }
  repeat split.
  - simpl. unfold bind. now rewrite net_input1_run with (b := b) (ws := ws).
  - exact Hp.
  - intros H0. rewrite Hp, H0, ge0_zero. reflexivity.
  - intros m Hm. simpl. unfold predict2, net_input2, bind, get_w. rewrite Hw.
    cbn [getitem0 ret tl]. unfold np_dot2. rewrite Hm, Nat.eqb_refl.
    unfold ret. now rewrite !map_map.
Qed.

(** C3.  [fit] draws its weights anew from [RandomState(seed=1)] at every
    call: two objects with the same [eta] and [n_epoch] given the same
    [X] and [y] end with the same outcome, the same weights and the same
    misclassification counts, whatever a previous [fit] left in them.
    The weights training starts from are
    [normal(loc=0.0, scale=0.01, size=1 + n_features)] of that generator,
    and there are [1 + n_features] of them. *)
Theorem fit_deterministic (c1 c2 : Perceptron R) (X : matrix R) (y : list (target R)) :
  eta c1 = eta c2 -> n_epoch c1 = n_epoch c2 ->
  fit (Arr2 X) y c1 = fit (Arr2 X) y c2 /\
  fit (Arr2 X) y c1 = training X y (reset c1 (ncols X)) /\
  w (reset c1 (ncols X)) = Some (normal 1 0%Q (1 # 100)%Q (1 + ncols X)) /\
  length (normal 1 0%Q (1 # 100)%Q (1 + ncols X)) = (1 + ncols X)%nat.
Proof.
  intros He Hn. repeat split.
  - rewrite !fit_unfold. unfold reset. now rewrite He, Hn.
  - apply normal_length.
Qed.


(** C5.  Every value [predict] returns, for a sample or for a batch, is -1
    or 1. *)
Theorem predict_labels (c c' : Perceptron R) (X : ndarray R) (r : result Z) :
  predict X c = (inr r, c') ->
  match r with
  | Scalar p => p = -1 \/ p = 1
  | Vector v => Forall (fun p => p = -1 \/ p = 1) v
  end.
Proof.
  assert (Hstep : forall x : R, step x = -1 \/ step x = 1).
  { intros x. unfold step. destruct (ge0 x); auto. }
  destruct X as [v|m]; simpl; unfold bind.
  - unfold predict1, bind. destruct (net_input1 v c) as [[e|a] s]; [discriminate|].
    unfold ret. intros [= <- _]. apply Hstep.
  - unfold predict2, bind. destruct (net_input2 m c) as [[e|a] s]; [discriminate|].
    unfold ret. intros [= <- _]. apply Forall_map, Forall_forall. intros; apply Hstep.
Qed.

(** C6.  For a trained classifier, [net_input] of a sample of the trained
    width is [bias + dot]; of a batch of that width it is the list of the
    same expression on each row; and no call of [net_input] changes the
    object. *)
Theorem net_input_affine (c : Perceptron R) (b : R) (ws : list R) :
  w c = Some (b :: ws) ->
  (forall x : list R,
      length x = length ws ->
      net_input (Arr1 x) c = (inr (Scalar (add b (dot_sum x ws))), c)) /\
  (forall m : matrix R,
      ncols m = length ws ->
      net_input (Arr2 m) c
      = (inr (Vector (map (fun r => add b (dot_sum r ws)) (rows m))), c)) /\
  (forall X : ndarray R, snd (net_input X c) = c).
Proof.
  intros Hw. repeat split.
  - intros x Hx. simpl. unfold bind. now rewrite net_input1_run with (b := b) (ws := ws).
  - intros m Hm. simpl. unfold net_input2, bind, get_w. rewrite Hw.
    cbn [getitem0 ret tl]. unfold np_dot2. rewrite Hm, Nat.eqb_refl.
    unfold ret. now rewrite map_map.
  - intros X. apply readonly_net_input.
Qed.

(** C7.  After a completed [fit] on a matrix of [n_features] columns,
    [predict] and [net_input] raise on a sample, or on a batch, of another
    width (NumPy's [ValueError] for shapes that are not aligned), and leave
    the object as it was. *)
Theorem width_mismatch_raises (c0 c : Perceptron R) (X : matrix R) (y : list (target R)) :
  fit (Arr2 X) y c0 = (inr tt, c) ->
  (forall x : list R,
      length x <> ncols X ->
      predict (Arr1 x) c = (inl ValueError, c) /\
      net_input (Arr1 x) c = (inl ValueError, c)) /\
  (forall m : matrix R,
      ncols m <> ncols X ->
      predict (Arr2 m) c = (inl ValueError, c) /\
      net_input (Arr2 m) c = (inl ValueError, c)).
Proof.
  intros Hfit. pose proof (fit_shaped X y c0) as Hs. rewrite Hfit in Hs.
  destruct Hs as (_ & _ & (wv & Hw & Hlen) & _). cbn [snd] in Hw.
  destruct wv as [|b ws]; [discriminate|]. injection Hlen as Hlen.
  split.
  - intros x Hx.
    assert (Hn : net_input1 x c = (inl ValueError, c)).
    { unfold net_input1, bind, get_w. rewrite Hw. cbn [getitem0 ret tl].
      unfold np_dot1. rewrite Hlen.
      destruct (Nat.eqb_spec (length x) (ncols X)); [contradiction | reflexivity]. }
    simpl. unfold predict1, bind. now rewrite Hn.
  - intros m Hm.
    assert (Hn : net_input2 m c = (inl ValueError, c)).
    { unfold net_input2, bind, get_w. rewrite Hw. cbn [getitem0 ret tl].
      unfold np_dot2. rewrite Hlen.
      destruct (Nat.eqb_spec (ncols m) (ncols X)); [contradiction | reflexivity]. }
    simpl. unfold predict2, bind. now rewrite Hn.
Qed.

(** C8 as amended.  [fit] is not atomic.  On a one-dimensional [X] it
    raises before its first assignment and the object is as it was.  On a
    two-dimensional [X] it first replaces the weights and the
    misclassification counts and then trains: its outcome and the object
    it leaves, also when it raises, are those of fitting a new object with
    the same [eta] and [n_epoch], with weights for [n_features] features
    and a list of counts set; it completes whenever the matrix is
    rectangular and the targets are numbers. *)
Theorem fit_overwrites (c : Perceptron R) (y : list (target R)) :
  (forall v : list R, fit (Arr1 v) y c = (inl IndexError, c)) /\
  (forall X : matrix R,
      fit (Arr2 X) y c = fit (Arr2 X) y (init (eta c) (n_epoch c)) /\
      shaped (ncols X) (eta c) (n_epoch c) (snd (fit (Arr2 X) y c))) /\
  (forall (X : matrix R) (ys : list R),
      wf_matrix X -> y = map (@TNum R) ys ->
      fst (fit (Arr2 X) y c) = inr tt).
Proof.
  split; [reflexivity|]. split.
  - intros X. split; [reflexivity | apply fit_shaped].
  - intros X ys HX ->. now rewrite fit_run.
Qed.

(** C9.  [predict] and [net_input] leave the object (weights and
    misclassification counts included) exactly as they found it, whatever
    they return; so [predict] called again on the same input, after any
    number of calls, gives what the first call gave. *)
Theorem predict_readonly (c : Perceptron R) (X : ndarray R) :
  snd (predict X c) = c /\
  snd (net_input X c) = c /\
  (forall k : nat, after_calls k X c = c) /\
  (forall k : nat, predict X (after_calls k X c) = predict X c).
Proof.
  assert (Hk : forall k : nat, after_calls k X c = c).
  { induction k as [|k IH]; simpl; [reflexivity|].
    now rewrite readonly_predict. }
  repeat split.
  - apply readonly_predict.
  - apply readonly_net_input.
  - exact Hk.
  - intros k. now rewrite Hk.
Qed.

(** C10.  On a rectangular matrix with numeric labels and a non-negative
    [n_epoch], [fit] completes and the list of misclassification counts
    has length [n_epoch]; entry [k] is the number of samples whose update
    was non-zero in the epoch run on the weights that [k] epochs left; it
    lies between 0 and the number of training samples. *)
Theorem misclass_sequence (c : Perceptron R) (X : matrix R) (ys : list R) :
  wf_matrix X -> 0 <= n_epoch c ->
  exists (c' : Perceptron R) (l : list Z),
    fit (Arr2 X) (map (@TNum R) ys) c = (inr tt, c') /\
    n_misclass c' = Some l /\
    Z.of_nat (length l) = n_epoch c /\
    forall k : nat,
      (k < length l)%nat ->
      exists m : Z,
        nth_error l k = Some m /\
        m = Z.of_nat (length (filter ne0
              (rule_updates (eta c)
                 (rule_train k (eta c) (drawn (ncols X)) (combine (rows X) ys))
                 (combine (rows X) ys)))) /\
        0 <= m <= Z.of_nat (length (rows X)).
Proof.
  intros HX Hn. eexists; eexists. split; [now apply fit_run|].
  split; [reflexivity|]. rewrite rule_counts_length. split; [lia|].
  intros k Hk. eexists. split; [now apply rule_counts_nth|].
  split; [reflexivity|].
  match goal with |- 0 <= ?m <= _ => pose proof
    (rule_count_bounds (eta c)
       (rule_train k (eta c) (drawn (ncols X)) (combine (rows X) ys))
       (combine (rows X) ys)) as Hb end.
  rewrite length_combine in Hb. lia.
Qed.

End Claims.

(** * The claims on the integer instance *)

Section OnIntegers.

Import IntArith.

Lemma X4_wf : wf_matrix X4.
Proof. unfold wf_matrix; simpl. repeat constructor. Defined.

Lemma training_set4 : well_formed X4 y4 l4.
Proof.
  unfold well_formed. split; [discriminate|]. split; [exact X4_wf|].
  split; [reflexivity|]. split; [|reflexivity].
  unfold l4. repeat (apply Forall_cons; [auto|]). apply Forall_nil.
Defined.

Lemma fit_follows_rule_witness :
  well_formed X4 y4 l4 /\ 0 <= n_epoch (init 1 3) /\
  fit (Arr2 X4) y4 (init 1 3) = (inr tt, fitted4).
Proof.
  split; [exact training_set4|].
  assert (Hn : 0 <= n_epoch (init 1 3)) by (simpl; lia).
  split; [exact Hn|].
  destruct (@fit_follows_rule Z _ _ (init 1 3) X4 y4 l4 training_set4 Hn) as ((n & Hn3 & Hfit) & _).
  rewrite Hfit. assert (n = 3%nat) as -> by (simpl in Hn3; lia). reflexivity.
Defined.

Lemma predict_threshold_witness :
  w fitted4 = Some [0; -1; 5] /\ length [5; 1] = length [-1; 5] /\
  predict (Arr1 [5; 1]) fitted4 = (inr (Scalar 1), fitted4).
Proof.
  split; [reflexivity|]. split; [reflexivity|].
  destruct (@predict_threshold Z _ fitted4 0 [-1; 5] [5; 1] eq_refl eq_refl) as (_ & _ & H0 & _).
  apply H0. reflexivity.
Defined.

Lemma fit_deterministic_witness :
  eta (init 1 3) = eta fitted4 /\ n_epoch (init 1 3) = n_epoch fitted4 /\
  fit (Arr2 X4) y4 (init 1 3) = fit (Arr2 X4) y4 fitted4.
Proof.
  split; [reflexivity|]. split; [reflexivity|].
  exact (proj1 (@fit_deterministic Z _ _ (init 1 3) fitted4 X4 y4 eq_refl eq_refl)).
Defined.

Lemma predict_labels_witness :
  predict (Arr2 X4) fitted4 = (inr (Vector [1; -1; -1; 1]), fitted4) /\
  Forall (fun p => p = -1 \/ p = 1) [1; -1; -1; 1].
Proof.
  assert (Hp : predict (Arr2 X4) fitted4 = (inr (Vector [1; -1; -1; 1]), fitted4))
    by reflexivity.
  split; [exact Hp|]. exact (@predict_labels Z _ fitted4 fitted4 (Arr2 X4) _ Hp).
Defined.

Lemma net_input_affine_witness :
  w fitted4 = Some [0; -1; 5] /\
  net_input (Arr2 X4) fitted4 = (inr (Vector [9; -7; -14; 7]), fitted4).
Proof.
  split; [reflexivity|].
  destruct (@net_input_affine Z _ fitted4 0 [-1; 5] eq_refl)
    as (_ & Hm & _).
  rewrite (Hm X4 eq_refl). reflexivity.
Defined.

Lemma width_mismatch_raises_witness :
  fit (Arr2 X4) y4 (init 1 3) = (inr tt, fitted4) /\
  length [7; 7; 7] <> ncols X4 /\
  predict (Arr1 [7; 7; 7]) fitted4 = (inl ValueError, fitted4).
Proof.
  assert (Hfit : fit (Arr2 X4) y4 (init 1 3) = (inr tt, fitted4)) by reflexivity.
  assert (Hlen : length [7; 7; 7] <> ncols X4) by (simpl; lia).
  split; [exact Hfit|]. split; [exact Hlen|].
  exact (proj1 (proj1 (@width_mismatch_raises Z _ _ (init 1 3) fitted4 X4 y4 Hfit) [7; 7; 7] Hlen)).
Defined.

Lemma fit_overwrites_witness :
  wf_matrix X4 /\ y4 = map (@TNum Z) l4 /\
  fst (fit (Arr2 X4) y4 fitted4) = inr tt.
Proof.
  split; [exact X4_wf|]. split; [reflexivity|].
  exact (proj2 (proj2 (@fit_overwrites Z _ _ fitted4 y4)) X4 l4 X4_wf eq_refl).
Defined.

Lemma misclass_sequence_witness :
  wf_matrix X4 /\ 0 <= n_epoch (init 1 3) /\
  exists (c' : Perceptron Z) (l : list Z),
    fit (Arr2 X4) (map (@TNum Z) l4) (init 1 3) = (inr tt, c') /\
    n_misclass c' = Some l /\ Z.of_nat (length l) = 3.
Proof.
  split; [exact X4_wf|].
  assert (Hn : 0 <= n_epoch (init 1 3)) by (simpl; lia).
  split; [exact Hn|].
  destruct (@misclass_sequence Z _ _ (init 1 3) X4 l4 X4_wf Hn) as (c' & l & Hfit & Hl & Hlen & _).
  exists c', l. repeat split; assumption.
Defined.

(** C8 as stated fails: fitting a trained classifier on targets that are
    still species names raises [TypeError] in the first pass of the loop,
    after the weights and the counts of the previous [fit] have been
    replaced. *)
Lemma fit_not_atomic :
  fit (Arr2 X4) y4 (init 1 3) = (inr tt, fitted4) /\
  fit (Arr2 X4) names4 fitted4
  = (inl TypeError, mkPerceptron 1 3 (Some [0; 1; -1]) (Some [])) /\
  snd (fit (Arr2 X4) names4 fitted4) <> fitted4 /\
  n_misclass (snd (fit (Arr2 X4) names4 fitted4)) <> n_misclass fitted4.
Proof.
  split; [reflexivity|]. split; [reflexivity|]. split; simpl; discriminate.
Qed.

End OnIntegers.

(** * Further properties of the code *)

Section Edges.

Context {R : Type} {AR : Arith R} {RS : RandomState R}.

Lemma for_each_ext {A} (l : list A) (f g : A -> M R unit) :
  (forall a s, f a s = g a s) -> forall s, for_each l f s = for_each l g s.
Proof.
  intros H. induction l as [|a l IH]; intros s; simpl; [reflexivity|].
  unfold bind. rewrite H. destruct (g a s) as [[e|u] s']; [reflexivity | apply IH].
Qed.

(** [fit] sees [X] and [y] only through the number of columns and the
    pairs [zip(X, y)] yields. *)
Lemma fit_ext (X X' : matrix R) (y y' : list (target R)) (c : Perceptron R) :
  ncols X = ncols X' -> combine (rows X) y = combine (rows X') y' ->
  fit (Arr2 X) y c = fit (Arr2 X') y' c.
Proof.
  intros Hc Hz. rewrite !fit_unfold, Hc. unfold training, bind, get_n_epoch.
  apply for_each_ext. intros k s. unfold epoch_body. now rewrite Hz.
Qed.

Lemma rule_train_nil (n : nat) (e : R) (wv : list R) : rule_train n e wv [] = wv.
Proof. induction n as [|n IH]; simpl; [reflexivity | exact IH]. Qed.

Lemma rule_counts_nil (n : nat) (e : R) (wv : list R) :
  rule_counts n e wv [] = repeat 0 n.
Proof. induction n as [|n IH]; simpl; [reflexivity | now rewrite IH]. Qed.

Lemma predict2_run (c : Perceptron R) (b : R) (ws : list R) (m : matrix R) :
  w c = Some (b :: ws) -> ncols m = length ws ->
  predict2 m c = (inr (map (fun r => step (add b (dot_sum r ws))) (rows m)), c).
Proof.
  intros Hw Hm. unfold predict2, net_input2, bind, get_w. rewrite Hw.
  cbn [getitem0 ret tl]. unfold np_dot2. rewrite Hm, Nat.eqb_refl.
  unfold ret. now rewrite !map_map.
Qed.

(** X1.  On an object that [__init__] has just made, [predict] and
    [net_input] raise [AttributeError] on every input and leave the object
    as it is: the weights do not exist before [fit]. *)
Theorem unfitted_raises (e : R) (n : Z) (X : ndarray R) :
  predict X (init e n) = (inl AttributeError, init e n) /\
  net_input X (init e n) = (inl AttributeError, init e n).
Proof. destruct X; split; reflexivity. Qed.

(** X2.  With [n_epoch <= 0] the loop body never runs: on any
    two-dimensional [X] and any [y], strings included, [fit] completes,
    the weights are the drawn ones and the list of counts is empty. *)
Theorem fit_no_epochs (c : Perceptron R) (X : matrix R) (y : list (target R)) :
  n_epoch c <= 0 ->
  fit (Arr2 X) y c = (inr tt, trained c (drawn (ncols X)) []).
Proof.
  intros Hn. rewrite fit_unfold. unfold training, bind, get_n_epoch, range.
  cbn [reset n_epoch]. replace (Z.to_nat (n_epoch c)) with O by lia. reflexivity.
Qed.

(** X3.  On a matrix without rows, or with no targets, [fit] completes
    without an update: the weights stay the drawn ones and every epoch
    records the count 0. *)
Theorem fit_empty_training_set (c : Perceptron R) (X : matrix R) (y : list (target R)) :
  rows X = [] \/ y = [] ->
  fit (Arr2 X) y c
  = (inr tt, trained c (drawn (ncols X)) (repeat 0 (Z.to_nat (n_epoch c)))).
Proof.
  intros H.
  assert (Hz : combine (rows X) y = []).
  { destruct H as [-> | ->]; [reflexivity | apply combine_nil]. }
  rewrite (@fit_ext X (Matrix (ncols X) []) y (map (@TNum R) []) c eq_refl Hz).
  rewrite fit_run by constructor.
  cbn [ncols rows combine]. now rewrite rule_train_nil, rule_counts_nil.
Qed.

(** X4.  [zip(X, y)] stops at the shorter of the two: targets beyond the
    last row, and rows beyond the last target, are never looked at, and no
    error reports the mismatch. *)
Theorem fit_zip_truncates (c : Perceptron R) (X : matrix R) (y : list (target R)) :
  fit (Arr2 X) y c = fit (Arr2 X) (firstn (length (rows X)) y) c /\
  fit (Arr2 X) y c
  = fit (Arr2 (Matrix (ncols X) (firstn (length y) (rows X)))) y c.
Proof.
  split; apply fit_ext; try reflexivity.
  - apply combine_firstn_l.
  - apply combine_firstn_r.
Qed.

(** X10.  Training is never resumed: after any earlier call of [fit],
    completed or failed, on any data, fitting gives the outcome and the
    object that fitting the original object gives. *)
Theorem refit_forgets (c : Perceptron R) (X0 : ndarray R) (y0 : list (target R))
        (X : matrix R) (y : list (target R)) :
  fit (Arr2 X) y (snd (fit X0 y0 c)) = fit (Arr2 X) y c.
Proof.
  rewrite !fit_unfold. f_equal. unfold reset.
  destruct X0 as [v|X0]; [reflexivity|].
  destruct (fit_shaped X0 y0 c) as (-> & -> & _). reflexivity.
Qed.

(** X11.  Whatever [fit] on [X] did, completed or raised during training,
    the object it leaves predicts on [X]: one label per row, and on a
    rectangular [X] the label of row [i] in the batch is the label
    [predict] gives for that row alone. *)
Theorem predict_after_fit (c : Perceptron R) (X : matrix R) (y : list (target R)) :
  let c' := snd (fit (Arr2 X) y c) in
  exists v : list Z,
    predict (Arr2 X) c' = (inr (Vector v), c') /\
    length v = length (rows X) /\
    (wf_matrix X ->
     forall (i : nat) (row : list R),
       nth_error (rows X) i = Some row ->
       exists p : Z,
         predict (Arr1 row) c' = (inr (Scalar p), c') /\ nth_error v i = Some p).
Proof.
  intros c'. destruct (fit_shaped X y c) as (_ & _ & (wv & Hw & Hlen) & _).
  fold c' in Hw. destruct wv as [|b ws]; [discriminate|]. injection Hlen as Hlen.
  exists (map (fun r => step (add b (dot_sum r ws))) (rows X)).
  split; [|split].
  - simpl. unfold bind. now rewrite predict2_run with (b := b) (ws := ws).
  - apply length_map.
  - intros HX i row Hi. exists (step (add b (dot_sum row ws))). split.
    + simpl. unfold bind. rewrite predict1_run with (b := b) (ws := ws); try easy.
      rewrite Hlen. unfold wf_matrix in HX. rewrite Forall_forall in HX.
      apply HX. eapply nth_error_In; eassumption.
    + exact (map_nth_error (fun r => step (add b (dot_sum r ws))) i (rows X) Hi).
Qed.

End Edges.

(** ** Targets that are not numbers *)

Section Strings.

Context {R : Type} {AR : Arith R} {RS : RandomState R}.

Lemma all_num (l : list (target R)) :
  forallb is_num l = true -> l = map (@TNum R) (map num_of l).
Proof.
  induction l as [|t l IH]; simpl; [reflexivity|].
  destruct t as [r|s]; simpl; [|discriminate]. intros H. now rewrite <- IH.
Qed.

(** The inner loop stops at the first string it meets. *)
Lemma inner_loop_str (F : nat) (rs : list (list R)) :
  Forall (fun r => length r = F) rs ->
  forall (y : list (target R)) (c : Perceptron R) (wv : list R) (acc : Z),
    w c = Some wv -> length wv = S F ->
    forallb is_num (firstn (length rs) y) = false ->
    exists wv',
      foldM sample_body (combine rs y) acc c = (inl TypeError, with_w c wv') /\
      length wv' = S F.
Proof.
  induction 1 as [|r rs Hr Hrs IH]; intros y c wv acc Hw Hlen Hy; [discriminate|].
  destruct y as [|t y]; [discriminate|].
  cbn [length firstn forallb] in Hy. simpl combine. cbn [foldM]. unfold bind at 1.
  assert (Hlen' : length wv = S (length r)) by now rewrite Hr.
  destruct t as [yv|s].
  - rewrite sample_body_run with (wv := wv) by assumption.
    destruct (IH y (with_w c (rule_step (eta c) wv (r, yv)))
                (rule_step (eta c) wv (r, yv))
                (acc + b2z (ne0 (rule_update (eta c) wv (r, yv)))))
      as (wv' & Hrun & Hlen''); try reflexivity; try assumption.
    + now rewrite rule_step_length.
    + exists wv'. split; [exact Hrun | exact Hlen''].
  - exists wv. split; [|assumption].
    destruct wv as [|b ws]; [discriminate|]. injection Hlen' as Hlen'.
    unfold sample_body, bind at 1, get_eta. unfold bind at 1.
    rewrite predict1_run with (b := b) (ws := ws) by easy.
    unfold bind, py_sub, raise. now rewrite with_w_same.
Qed.

(** X5.  On a rectangular [X], [fit] completes exactly when no epoch is
    asked for or the first [len(X)] targets are all numbers; when an epoch
    is asked for and one of them is a string, it raises [TypeError] during
    the first epoch: no count has been recorded and the weights are the
    drawn ones updated by the samples before the string. *)
Theorem fit_type_error (c : Perceptron R) (X : matrix R) (y : list (target R)) :
  wf_matrix X ->
  (n_epoch c <= 0 \/ forallb is_num (firstn (length (rows X)) y) = true ->
   fst (fit (Arr2 X) y c) = inr tt) /\
  (0 < n_epoch c -> forallb is_num (firstn (length (rows X)) y) = false ->
   exists wv,
     fit (Arr2 X) y c = (inl TypeError, trained c wv []) /\
     length wv = S (ncols X)).
Proof.
  intros HX. split.
  - intros [Hn | Hy].
    + rewrite fit_unfold. unfold training, bind, get_n_epoch, range.
      cbn [reset n_epoch]. replace (Z.to_nat (n_epoch c)) with O by lia. reflexivity.
    + rewrite fit_ext
        with (X' := X) (y' := map (@TNum R) (map num_of (firstn (length (rows X)) y))).
      * now rewrite fit_run.
      * reflexivity.
      * rewrite <- all_num by assumption. apply combine_firstn_l.
  - intros Hn Hy. rewrite fit_unfold. unfold training, bind at 1, get_n_epoch, range.
    cbn [reset n_epoch].
    destruct (Z.to_nat (n_epoch c)) as [|m] eqn:Em; [lia|].
    cbn [seq map for_each]. unfold bind at 1, epoch_body, bind at 1.
    destruct (@inner_loop_str (ncols X) (rows X) HX y
                (reset c (ncols X)) (drawn (ncols X)) 0 eq_refl)
      as (wv' & Hrun & Hlen); [apply normal_length | assumption |].
    rewrite Hrun. exists wv'. split; [reflexivity | assumption].
Qed.

End Strings.

(** ** What a zero count tells *)

Section Certify.

Context {R : Type} {AR : Arith R} {RS : RandomState R}.

Lemma epoch_still_fixed (e : R) (samples : list (list R * R)) (wv : list R) :
  epoch_still e wv samples -> rule_epoch e wv samples = wv.
Proof.
  unfold rule_epoch. induction samples as [|s rest IH]; simpl; [reflexivity|].
  intros [Hs Hrest]. rewrite Hs. now apply IH.
Qed.

Lemma decide_label (wv x : list R) : decide wv x = -1 \/ decide wv x = 1.
Proof. unfold decide, step. destruct (ge0 (affine wv x)); auto. Qed.

(** In an epoch that counts 0 and whose updates leave the weights alone,
    every sample is classified as its label says. *)
Lemma labels_of_still_epoch (e : R) (wv : list R) :
  ne0 (mul e (sub (of_int 1) (of_int (-1)))) = true ->
  ne0 (mul e (sub (of_int (-1)) (of_int 1))) = true ->
  forall (rs : list (list R)) (ls : list Z),
    length ls = length rs ->
    Forall (fun l => l = -1 \/ l = 1) ls ->
    rule_count e wv (combine rs (map of_int ls)) = 0 ->
    epoch_still e wv (combine rs (map of_int ls)) ->
    map (decide wv) rs = ls.
Proof.
  intros Hup Hdown. induction rs as [|r rs IH]; intros [|l ls] Hlen Hls Hc Hst;
    try discriminate; [reflexivity|].
  simpl in *. inversion Hls as [|? ? Hl Hls']; subst.
  destruct Hst as [Hs Hst]. rewrite rule_count_cons, Hs in Hc.
  pose proof (rule_count_bounds e wv (combine rs (map of_int ls))) as Hb.
  assert (Hn0 : ne0 (rule_update e wv (r, of_int l)) = false).
  { destruct (ne0 (rule_update e wv (r, of_int l)));
      [unfold b2z in Hc; lia | reflexivity]. }
  rewrite Hn0 in Hc. unfold b2z in Hc.
  f_equal; [|apply IH; first [assumption | lia | now injection Hlen]].
  unfold rule_update in Hn0. cbn [fst snd] in Hn0.
  destruct (decide_label wv r) as [Hd | Hd]; rewrite Hd in *;
    destruct Hl as [-> | ->]; try reflexivity; congruence.
Qed.

(** X6.  On a well-formed training set, with a learning rate for which a
    wrong prediction gives an update that tests non-zero: if an epoch of a
    completed [fit] recorded the count 0 and its updates left the weights
    as they were, then [predict] on the training matrix returns exactly
    the training labels. *)
Theorem zero_count_certifies (c c' : Perceptron R) (X : matrix R)
        (y : list (target R)) (ls : list Z) (l : list Z) (k : nat) :
  well_formed X y ls ->
  ne0 (mul (eta c) (sub (of_int 1) (of_int (-1)))) = true ->
  ne0 (mul (eta c) (sub (of_int (-1)) (of_int 1))) = true ->
  fit (Arr2 X) y c = (inr tt, c') ->
  n_misclass c' = Some l -> nth_error l k = Some 0 ->
  epoch_still (eta c)
    (rule_train k (eta c) (drawn (ncols X)) (combine (rows X) (map of_int ls)))
    (combine (rows X) (map of_int ls)) ->
  predict (Arr2 X) c' = (inr (Vector ls), c').
Proof.
  intros (_ & HX & Hlen & Hls & Hy) Hup Hdown Hfit Hl Hk Hst.
  unfold numeric in Hy. subst y.
  rewrite fit_run in Hfit by assumption. injection Hfit as <-.
  cbn [trained n_misclass] in Hl. injection Hl as <-.
  set (S0 := combine (rows X) (map of_int ls)) in *.
  set (n := Z.to_nat (n_epoch c)) in *.
  assert (Hkn : (k < n)%nat).
  { rewrite <- (rule_counts_length n (eta c) S0 (drawn (ncols X))).
    apply nth_error_Some. now rewrite Hk. }
  rewrite rule_counts_nth in Hk by assumption. injection Hk as Hk.
  set (Wk := rule_train k (eta c) (drawn (ncols X)) S0) in *.
  assert (HWk : length Wk = S (ncols X)).
  { unfold Wk, S0. apply rule_train_length; [assumption | apply normal_length]. }
  assert (Hfix : rule_epoch (eta c) Wk S0 = Wk) by now apply epoch_still_fixed.
  assert (HWn : rule_train n (eta c) (drawn (ncols X)) S0 = Wk).
  { replace n with (k + (n - k))%nat by lia.
    rewrite rule_train_add. fold Wk. now apply rule_train_fixed. }
  rewrite HWn.
  assert (Hdec : map (decide Wk) (rows X) = ls)
    by (apply labels_of_still_epoch with (e := eta c); assumption).
  destruct Wk as [|b ws] eqn:EW; [discriminate|]. injection HWk as HWk.
  simpl. unfold bind.
  rewrite predict2_run with (b := b) (ws := ws); [|reflexivity | now symmetry].
  unfold ret. now rewrite <- Hdec.
Qed.

End Certify.

(** ** The script: labels, decision grid, colours *)

Section ScriptFacts.

Context {R : Type} {AR : Arith R} {RS : RandomState R}.

Lemma relabel_labels (names : list string) :
  Forall (fun l => l = -1 \/ l = 1) (relabel names).
Proof.
  unfold relabel. apply Forall_map, Forall_forall. intros s _.
  destruct (String.eqb s "Iris-setosa"); auto.
Qed.

(** X7.  The labels of line 129 are a label vector as [fit] wants it: one
    per name, each -1 or 1, -1 exactly at the names equal to
    ['Iris-setosa'] (any other name, whatever it is, gives 1); zipped with
    a non-empty rectangular [X] of as many rows they make a well-formed
    training set, on which [fit] completes. *)
Theorem relabel_well_formed (c : Perceptron R) (X : matrix R) (names : list string) :
  wf_matrix X -> rows X <> [] -> length names = length (rows X) ->
  well_formed X (int_targets (relabel names)) (relabel names) /\
  (forall (i : nat) (s : string),
      nth_error names i = Some s ->
      (nth_error (relabel names) i = Some (-1) <-> s = "Iris-setosa"%string) /\
      (nth_error (relabel names) i = Some 1 <-> s <> "Iris-setosa"%string)) /\
  fst (fit (Arr2 X) (int_targets (relabel names)) c) = inr tt.
Proof.
  intros HX Hne Hlen. split; [|split].
  - unfold well_formed. repeat split; try assumption.
    + unfold relabel. now rewrite length_map.
    + apply relabel_labels.
  - intros i s Hi. unfold relabel.
    rewrite (map_nth_error
               (fun s0 => if String.eqb s0 "Iris-setosa" then -1 else 1) i names Hi).
    destruct (String.eqb_spec s "Iris-setosa") as [Hs | Hs]; split; split;
      intros H; try reflexivity; try assumption; try discriminate; contradiction.
  - unfold int_targets. now rewrite fit_run.
Qed.

Lemma combine_app_same {A B} (l1 l2 : list A) (k1 k2 : list B) :
  length l1 = length k1 ->
  combine (l1 ++ l2) (k1 ++ k2) = combine l1 k1 ++ combine l2 k2.
Proof.
  revert k1; induction l1 as [|a l1 IH]; intros [|b k1] H; simpl in *;
    try discriminate; [reflexivity|]. now rewrite IH by now injection H.
Qed.

Lemma combine_const {A B} (a : list A) (b : B) :
  combine a (map (fun _ => b) a) = map (fun ai => (ai, b)) a.
Proof. induction a as [|x a IH]; simpl; [reflexivity | now rewrite IH]. Qed.

(** The two ravelled grids, paired: all points, row after row. *)
Lemma meshgrid_points {A} (a b : list A) :
  combine (ravel (fst (meshgrid a b))) (ravel (snd (meshgrid a b)))
  = concat (map (fun bi => map (fun ai => (ai, bi)) a) b).
Proof.
  unfold meshgrid, ravel. cbn [fst snd].
  induction b as [|bi b IH]; simpl; [reflexivity|].
  rewrite combine_app_same by now rewrite length_map.
  now rewrite combine_const, IH.
Qed.

Lemma meshgrid_sizes {A} (a b : list A) :
  length (ravel (fst (meshgrid a b))) = (length b * length a)%nat /\
  length (ravel (snd (meshgrid a b))) = (length b * length a)%nat.
Proof.
  unfold meshgrid, ravel. cbn [fst snd].
  induction b as [|bi b [IH1 IH2]]; simpl; [split; reflexivity|].
  rewrite !length_app, length_map, IH1, IH2. split; reflexivity.
Qed.

Lemma firstn_block {A} (l r : list A) : firstn (length l) (l ++ r) = l.
Proof. induction l as [|a l IH]; simpl; [now destruct r | now rewrite IH]. Qed.

Lemma skipn_block {A} (l r : list A) : skipn (length l) (l ++ r) = r.
Proof. induction l as [|a l IH]; simpl; [reflexivity | exact IH]. Qed.

(** Reshaping undoes ravelling. *)
Lemma chunks_concat {A} (c : nat) (ls : list (list A)) :
  Forall (fun l => length l = c) ls -> chunks (length ls) c (concat ls) = ls.
Proof.
  induction 1 as [|l ls Hl Hls IH]; simpl; [reflexivity|].
  subst c. rewrite firstn_block, skipn_block. f_equal. exact IH.
Qed.

Lemma predict2_mismatch (c : Perceptron R) (b : R) (ws : list R) (m : matrix R) :
  w c = Some (b :: ws) -> ncols m <> length ws ->
  predict2 m c = (inl ValueError, c).
Proof.
  intros Hw Hm. unfold predict2, net_input2, bind, get_w. rewrite Hw.
  cbn [getitem0 ret tl]. unfold np_dot2.
  destruct (Nat.eqb_spec (ncols m) (length ws)); [contradiction | reflexivity].
Qed.

Lemma grid_labels_flat (f : list R -> Z) (a0 a1 : list R) :
  map f (map (fun p => [fst p; snd p])
           (concat (map (fun bi => map (fun ai => (ai, bi)) a0) a1)))
  = concat (map (fun x1 => map (fun x0 => f [x0; x1]) a0) a1).
Proof.
  rewrite map_map, concat_map, map_map. f_equal.
  apply map_ext. intros x1. now rewrite map_map.
Qed.

Lemma reshape_concat {A} (c : nat) (g : list (list A)) (s : Perceptron R) :
  Forall (fun l => length l = c) g ->
  reshape (length g) c (concat g) s = (inr g, s).
Proof.
  intros Hg. unfold reshape.
  assert (Hlen : length (concat g) = (length g * c)%nat).
  { clear s. induction Hg as [|l g Hl Hg IH]; simpl; [reflexivity|].
    now rewrite length_app, IH, Hl. }
  rewrite Hlen, Nat.eqb_refl. unfold ret. now rewrite chunks_concat.
Qed.

(** X8.  For a classifier with two feature weights the label grid has one
    row per value of the second axis and one column per value of the first,
    and its entry at row [i], column [j] is the decision at the point
    (first axis [j], second axis [i]); the classifier is left untouched.
    For a classifier trained on any other number of features the helper
    raises [ValueError], its points having two coordinates. *)
Theorem decision_grid_labels (c : Perceptron R) (b : R) (ws : list R) (a0 a1 : list R) :
  w c = Some (b :: ws) ->
  (length ws = 2%nat ->
   decision_grid a0 a1 c
   = (inr (map (fun x1 => map (fun x0 => step (add b (dot_sum [x0; x1] ws))) a0) a1),
      c)) /\
  (length ws <> 2%nat -> decision_grid a0 a1 c = (inl ValueError, c)).
Proof.
  intros Hw.
  destruct (meshgrid_sizes a0 a1) as [H0 H1].
  pose proof (meshgrid_points a0 a1) as Hpts.
  unfold decision_grid.
  destruct (meshgrid a0 a1) as [X0_grid X1_grid]. cbn [fst snd] in *.
  split; intros Hlen; unfold bind at 1, stack_T;
    rewrite H0, H1, Nat.eqb_refl; unfold ret at 1; rewrite Hpts.
  - simpl predict. unfold bind.
    rewrite predict2_run with (b := b) (ws := ws) by (try assumption; now rewrite Hlen).
    unfold ret. cbn [rows].
    rewrite (grid_labels_flat (fun r => step (add b (dot_sum r ws)))).
    set (g := map (fun x1 => map (fun x0 => step (add b (dot_sum [x0; x1] ws))) a0) a1).
    replace (length a1) with (length g) by apply length_map.
    apply reshape_concat.
    apply Forall_map, Forall_forall. intros x _. apply length_map.
  - simpl predict. unfold bind.
    rewrite predict2_mismatch with (b := b) (ws := ws); [reflexivity | assumption |].
    cbn [ncols]. congruence.
Qed.

End ScriptFacts.

Section Colours.

Context {R : Type} {AR : Arith R}.

Lemma scatter_classes_run (classes : list Z) :
  forall (pos : nat) (c : Perceptron R),
    (pos + length classes <= 3)%nat ->
    scatter_classes pos classes c = (inr (combine classes (skipn pos colors)), c).
Proof.
  induction classes as [|cl rest IH]; intros pos c H; simpl.
  - reflexivity.
  - simpl in H.
    destruct pos as [|[|[|pos]]]; try lia; cbn [nth_error colors];
      unfold bind; rewrite IH by (simpl; lia); reflexivity.
Qed.

Lemma scatter_classes_overflow (classes : list Z) :
  forall (pos : nat) (c : Perceptron R),
    (pos <= 3 < pos + length classes)%nat ->
    scatter_classes pos classes c = (inl IndexError, c).
Proof.
  induction classes as [|cl rest IH]; intros pos c H; simpl in *.
  - lia.
  - destruct pos as [|[|[|pos]]]; cbn [nth_error colors]; unfold bind;
      try (rewrite IH by (simpl; lia); reflexivity).
    destruct pos; reflexivity.
Qed.

(** X9.  With at most three distinct labels every class is scattered in
    the colour the colormap holds at its rank among the sorted labels; with
    more than three the loop raises [IndexError], the tuple of colours
    having three entries. *)
Theorem scatter_classes_bound (c : Perceptron R) (y : list Z) :
  ((length (np_unique y) <= 3)%nat ->
   scatter_classes 0 (np_unique y) c
   = (inr (combine (np_unique y) (cmap_colors y)), c)) /\
  ((3 < length (np_unique y))%nat ->
   scatter_classes 0 (np_unique y) c = (inl IndexError, c)).
Proof.
  split; intros H.
  - rewrite scatter_classes_run by (simpl; lia). unfold cmap_colors.
    cbn [skipn]. now rewrite <- combine_firstn_l.
  - apply scatter_classes_overflow. simpl; lia.
Qed.

Lemma insert_sorted_In (a z : Z) (l : list Z) :
  In z (insert_sorted a l) <-> z = a \/ In z l.
Proof.
  induction l as [|b l IH]; simpl; [intuition congruence|].
  destruct (Z.ltb_spec a b); [simpl; intuition congruence|].
  destruct (Z.eqb_spec a b); simpl; [subst; intuition congruence|].
  rewrite IH. intuition congruence.
Qed.

Lemma np_unique_In (z : Z) (y : list Z) : In z (np_unique y) <-> In z y.
Proof.
  induction y as [|a y IH]; simpl; [reflexivity|].
  rewrite insert_sorted_In, IH. intuition congruence.
Qed.

Lemma np_unique_binary (y : list Z) :
  Forall (fun l => l = -1 \/ l = 1) y ->
  np_unique y = [] \/ np_unique y = [-1] \/ np_unique y = [1] \/ np_unique y = [-1; 1].
Proof.
  induction 1 as [|a y Ha Hy IH]; simpl; [auto|].
  destruct Ha as [-> | ->];
    destruct IH as [-> | [-> | [-> | ->]]]; simpl; auto.
Qed.

(** X13.  For labels that are all -1 or 1, both occurring, the classes are
    scattered as -1 in red and 1 in blue, and the colormap is red, blue.
    The colour goes by rank, not by label: with only the label 1 present,
    class 1 is drawn red. *)
Theorem binary_classes_colours (c : Perceptron R) (y : list Z) :
  Forall (fun l => l = -1 \/ l = 1) y ->
  (In (-1) y -> In 1 y ->
   cmap_colors y = ["red"; "blue"]%string /\
   scatter_classes 0 (np_unique y) c
   = (inr [(-1, "red"%string); (1, "blue"%string)], c)) /\
  (~ In (-1) y -> In 1 y ->
   scatter_classes 0 (np_unique y) c = (inr [(1, "red"%string)], c)).
Proof.
  intros Hy. pose proof (np_unique_binary Hy) as Hu.
  pose proof (np_unique_In (-1) y) as Hm. pose proof (np_unique_In 1 y) as Hp.
  unfold cmap_colors.
  split; intros H1 H2; destruct Hu as [Hu | [Hu | [Hu | Hu]]]; rewrite Hu in *;
    simpl in Hm, Hp; try (split; reflexivity); try reflexivity; exfalso;
    intuition congruence.
Qed.

End Colours.

(** * The further properties on the integer instance *)

Section FurtherOnIntegers.

Import IntArith.

Lemma fit_no_epochs_witness :
  n_epoch (init 1 0) <= 0 /\
  fit (Arr2 X4) names4 (init 1 0) = (inr tt, mkPerceptron 1 0 (Some [0; 1; -1]) (Some [])).
Proof.
  assert (Hn : n_epoch (init 1 0) <= 0) by (simpl; lia).
  split; [exact Hn|].
  rewrite (@fit_no_epochs Z _ _ (init 1 0) X4 names4 Hn). reflexivity.
Defined.

Lemma fit_empty_training_set_witness :
  (rows (Matrix 2 (@nil (list Z))) = [] \/ y4 = []) /\
  fit (Arr2 (Matrix 2 [])) y4 (init 1 3)
  = (inr tt, mkPerceptron 1 3 (Some [0; 1; -1]) (Some [0; 0; 0])).
Proof.
  assert (H : rows (Matrix 2 (@nil (list Z))) = [] \/ y4 = []) by (left; reflexivity).
  split; [exact H|].
  rewrite (@fit_empty_training_set Z _ _ (init 1 3) (Matrix 2 []) y4 H). reflexivity.
Defined.

Lemma fit_type_error_witness :
  wf_matrix X4 /\ 0 < n_epoch (init 1 3) /\
  forallb is_num (firstn (length (rows X4)) names4) = false /\
  exists wv : list Z,
    fit (Arr2 X4) names4 (init 1 3) = (inl TypeError, trained (init 1 3) wv []) /\
    length wv = 3%nat.
Proof.
  assert (Hn : 0 < n_epoch (init 1 3)) by (simpl; lia).
  assert (Hy : forallb is_num (firstn (length (rows X4)) names4) = false) by reflexivity.
  split; [exact X4_wf|]. split; [exact Hn|]. split; [exact Hy|].
  exact (proj2 (@fit_type_error Z _ _ (init 1 3) X4 names4 X4_wf) Hn Hy).
Defined.

Lemma relabel_well_formed_witness :
  wf_matrix X4 /\ rows X4 <> [] /\ length species4 = length (rows X4) /\
  relabel species4 = l4 /\
  fst (fit (Arr2 X4) (int_targets (relabel species4)) (init 1 3)) = inr tt.
Proof.
  assert (Hne : rows X4 <> []) by discriminate.
  split; [exact X4_wf|]. split; [exact Hne|]. split; [reflexivity|].
  split; [reflexivity|].
  exact (proj2 (proj2 (@relabel_well_formed Z _ _ (init 1 3) X4 species4
                         X4_wf Hne eq_refl))).
Defined.

Lemma decision_grid_labels_witness :
  w fitted4 = Some [0; -1; 5] /\ length [-1; 5] = 2%nat /\
  decision_grid [-6; 0; 6] [0; 1] fitted4
  = (inr [[1; 1; -1]; [1; 1; -1]], fitted4).
Proof.
  split; [reflexivity|]. split; [reflexivity|].
  rewrite (proj1 (@decision_grid_labels Z _ fitted4 0 [-1; 5] [-6; 0; 6] [0; 1] eq_refl)
             eq_refl).
  reflexivity.
Defined.

Lemma scatter_classes_bound_witness :
  (3 < length (np_unique [1; 2; 3; 4; 2]%Z))%nat /\
  scatter_classes 0 (np_unique [1; 2; 3; 4; 2]) fitted4 = (inl IndexError, fitted4).
Proof.
  assert (H : (3 < length (np_unique [1; 2; 3; 4; 2]%Z))%nat) by (simpl; lia).
  split; [exact H|].
  exact (proj2 (@scatter_classes_bound Z fitted4 [1; 2; 3; 4; 2]) H).
Defined.

Lemma l4_labels : Forall (fun l => l = -1 \/ l = 1) l4.
Proof. unfold l4. repeat (apply Forall_cons; [auto|]). apply Forall_nil. Defined.

Lemma binary_classes_colours_witness :
  Forall (fun l => l = -1 \/ l = 1) l4 /\ In (-1) l4 /\ In 1 l4 /\
  scatter_classes 0 (np_unique l4) fitted4
  = (inr [(-1, "red"%string); (1, "blue"%string)], fitted4).
Proof.
  assert (Hm : In (-1) l4) by (simpl; auto).
  assert (Hp : In 1 l4) by (simpl; auto).
  split; [exact l4_labels|]. split; [exact Hm|]. split; [exact Hp|].
  exact (proj2 (proj1 (@binary_classes_colours Z fitted4 l4 l4_labels) Hm Hp)).
Defined.

Lemma predict_after_fit_witness :
  wf_matrix X4 /\ nth_error (rows X4) 0 = Some [1; 2] /\
  fst (fit (Arr2 X4) names4 (init 1 3)) = inl TypeError /\
  exists v : list Z,
    predict (Arr2 X4) (snd (fit (Arr2 X4) names4 (init 1 3)))
    = (inr (Vector v), snd (fit (Arr2 X4) names4 (init 1 3))) /\
    length v = 4%nat.
Proof.
  split; [exact X4_wf|]. split; [reflexivity|]. split; [reflexivity|].
  destruct (@predict_after_fit Z _ _ (init 1 3) X4 names4) as (v & Hp & Hlen & _).
  exists v. split; [exact Hp | exact Hlen].
Defined.

End FurtherOnIntegers.

(** * Runs in binary64 *)

Section OnBinary64.

Import Binary64.

Lemma X4f_wf : wf_matrix X4f.
Proof. unfold wf_matrix; simpl. repeat constructor. Defined.

Lemma training_set4f : well_formed X4f (int_targets l4f) l4f.
Proof.
  unfold well_formed. split; [discriminate|]. split; [exact X4f_wf|].
  split; [reflexivity|]. split; [|reflexivity].
  unfold l4f. repeat (apply Forall_cons; [auto|]). apply Forall_nil.
Defined.



Lemma zero_count_certifies_witness :
  well_formed X4f (int_targets l4f) l4f /\
  n_misclass (snd (fit (Arr2 X4f) (int_targets l4f) (init eta01 5)))
  = Some [2; 0; 0; 0; 0] /\
  fst (predict (Arr2 X4f) (snd (fit (Arr2 X4f) (int_targets l4f) (init eta01 5))))
  = inr (Vector l4f).
Proof.
  pose (c' := snd (fit (Arr2 X4f) (int_targets l4f) (init eta01 5))).
  assert (Hfit : fit (Arr2 X4f) (int_targets l4f) (init eta01 5) = (inr tt, c'))
    by (vm_compute; reflexivity).
  assert (Hl : n_misclass c' = Some [2; 0; 0; 0; 0]) by (vm_compute; reflexivity).
  assert (Hup : ne0 (mul (eta (init eta01 5)) (sub (of_int 1) (of_int (-1)))) = true)
    by (vm_compute; reflexivity).
  assert (Hdown : ne0 (mul (eta (init eta01 5)) (sub (of_int (-1)) (of_int 1))) = true)
    by (vm_compute; reflexivity).
  assert (Hst : epoch_still (eta (init eta01 5))
                  (rule_train 1 (eta (init eta01 5)) (drawn (ncols X4f))
                     (combine (rows X4f) (map of_int l4f)))
                  (combine (rows X4f) (map of_int l4f)))
    by (vm_compute; repeat split; reflexivity).
  split; [exact training_set4f|]. split; [exact Hl|].
  fold c'.
  rewrite (@zero_count_certifies _ _ _ (init eta01 5) c' X4f (int_targets l4f) l4f
             [2; 0; 0; 0; 0] 1 training_set4f Hup Hdown Hfit Hl eq_refl Hst).
  reflexivity.
Defined.

End OnBinary64.
